(** * The submission cycle of [src/app/page.tsx]

    A shallow embedding of the [Home] component: its four pieces of React
    state, the asynchronous submit handler [handleProcessing], the two form
    handlers, the [Clear] button, and the part of the rendered tree that
    depends on the state.  The Base64 text produced by
    [Buffer.from(bytes).toString("base64")] is modelled after RFC 4648
    (standard alphabet, [=] padding), which is what Node's [Buffer] emits. *)

From Stdlib Require Import List String Ascii NArith ZArith Bool Lia.
From Stdlib.Strings Require Import Byte.
Import ListNotations.

Local Open Scope string_scope.

(** ** Base64, as produced by [Buffer#toString("base64")] *)

Module Base64.

Local Open Scope N_scope.

Definition alphabet : string :=
  "ABCDEFGHIJKLMNOPQRSTUVWXYZabcdefghijklmnopqrstuvwxyz0123456789+/".

Definition pad : ascii := "="%char.

(** The character of a 6-bit value. *)
Definition enc6 (n : N) : ascii :=
  match String.get (N.to_nat n) alphabet with
  | Some c => c
  | None => pad
  end.

Fixpoint index_from (i : N) (c : ascii) (s : string) : option N :=
  match s with
  | EmptyString => None
  | String d s' => if Ascii.eqb c d then Some i else index_from (N.succ i) c s'
  end.

(** The 6-bit value of a character of the alphabet. *)
Definition dec6 (c : ascii) : option N := index_from 0 c alphabet.

(** [n] maps to a character other than the padding, and back to [n]. *)
Definition enc6_ok (n : N) : bool :=
  match dec6 (enc6 n) with
  | Some m => N.eqb m n
  | None => false
  end && negb (Ascii.eqb (enc6 n) pad).

(** The four 6-bit groups of three octets. *)
Definition sextet0 (a : N) : N := N.shiftr a 2.
Definition sextet1 (a b : N) : N := N.lor (N.shiftl (N.land a 3) 4) (N.shiftr b 4).
Definition sextet2 (b c : N) : N := N.lor (N.shiftl (N.land b 15) 2) (N.shiftr c 6).
Definition sextet3 (c : N) : N := N.land c 63.

(** The three octets of four 6-bit groups. *)
Definition octet0 (s0 s1 : N) : N := N.lor (N.shiftl s0 2) (N.shiftr s1 4).
Definition octet1 (s1 s2 : N) : N := N.lor (N.shiftl (N.land s1 15) 4) (N.shiftr s2 2).
Definition octet2 (s2 s3 : N) : N := N.lor (N.shiftl (N.land s2 3) 6) s3.

Fixpoint encode (bs : list byte) : string :=
  match bs with
  | [] => EmptyString
  | [x] =>
      let a := Byte.to_N x in
      String (enc6 (sextet0 a)) (String (enc6 (sextet1 a 0))
        (String pad (String pad EmptyString)))
  | [x; y] =>
      let a := Byte.to_N x in
      let b := Byte.to_N y in
      String (enc6 (sextet0 a)) (String (enc6 (sextet1 a b))
        (String (enc6 (sextet2 b 0)) (String pad EmptyString)))
  | x :: y :: z :: rest =>
      let a := Byte.to_N x in
      let b := Byte.to_N y in
      let c := Byte.to_N z in
      String (enc6 (sextet0 a)) (String (enc6 (sextet1 a b))
        (String (enc6 (sextet2 b c)) (String (enc6 (sextet3 c)) (encode rest))))
  end.

Definition obind {A B} (o : option A) (f : A -> option B) : option B :=
  match o with
  | Some a => f a
  | None => None
  end.

Notation "x <- o ;; k" := (obind o (fun x => k))
  (at level 61, o at next level, right associativity).

Definition is_empty (s : string) : bool :=
  match s with
  | EmptyString => true
  | String _ _ => false
  end.

(** A strict decoder: whole quanta of four characters, padding only at the
    very end. *)
Fixpoint decode (s : string) : option (list byte) :=
  match s with
  | EmptyString => Some []
  | String c0 (String c1 (String c2 (String c3 rest))) =>
      s0 <- dec6 c0 ;;
      s1 <- dec6 c1 ;;
      b0 <- Byte.of_N (octet0 s0 s1) ;;
      if Ascii.eqb c2 pad then
        if Ascii.eqb c3 pad && is_empty rest then Some [b0] else None
      else
        s2 <- dec6 c2 ;;
        b1 <- Byte.of_N (octet1 s1 s2) ;;
        if Ascii.eqb c3 pad then
          if is_empty rest then Some [b0; b1] else None
        else
          s3 <- dec6 c3 ;;
          b2 <- Byte.of_N (octet2 s2 s3) ;;
          tl <- decode rest ;;
          Some (b0 :: b1 :: b2 :: tl)
  | _ => None
  end.

End Base64.

(** ** Values and records of the component *)

(** Values with a string form: an [Error] object (its [name] and
    [message]), or a primitive. *)
Inductive JsValue : Type :=
| JsUndefined
| JsNull
| JsBoolean (b : bool)
| JsString (s : string)
| JsError (name message : string).

(** [`${v}`] for such a value: ECMAScript's ToString; for an [Error]
    object this is [Error.prototype.toString]. *)
Definition template (v : JsValue) : string :=
  match v with
  | JsUndefined => "undefined"
  | JsNull => "null"
  | JsBoolean true => "true"
  | JsBoolean false => "false"
  | JsString s => s
  | JsError name message =>
      if String.eqb name "" then message
      else if String.eqb message "" then name
      else name ++ ": " ++ message
  end.

(** What [catch (error)] can receive: a value that has a string form, or
    one on which string conversion throws a [TypeError] (a [Symbol], an
    object with no usable [toString], such as [Object.create(null)]). *)
Inductive Reason : Type :=
| Value (v : JsValue)
| JsSymbol (description : string)
| JsNullPrototypeObject.

Coercion Value : JsValue >-> Reason.

(** The evaluation of [`${r}`]: the string, or the [TypeError] it throws. *)
Definition interpolate (r : Reason) : Reason + string :=
  match r with
  | Value v => inr (template v)
  | JsSymbol _ =>
      inl (Value (JsError "TypeError" "Cannot convert a Symbol value to a string"))
  | JsNullPrototypeObject =>
      inl (Value (JsError "TypeError" "Cannot convert object to primitive value"))
  end.

(** JavaScript truthiness of [string | null], as used by [x && <jsx/>]. *)
Definition truthy (o : option string) : bool :=
  match o with
  | None => false
  | Some s => negb (String.eqb s "")
  end.

(** A browser [File]: the fields the component reads, and the bytes that
    [arrayBuffer()] resolves with. *)
Record File : Type := mkFile {
  file_name : string;
  file_type : string;
  file_bytes : list byte
}.

(** [interface FormData { file: File | null; prompt: string }] *)
Module FormData.
Record t : Type := mk {
  file : option File;
  prompt : string
}.
End FormData.

(** [MessageData], as [handleProcessing] builds it. *)
Module MessageData.
Record part : Type := mkPart {
  contents : string;
  type : string
}.
Record t : Type := mk {
  file : part;
  prompt : string
}.
End MessageData.

(** ** Asynchronous handlers

    An [async] function is a tree of state setters and [await] points; the
    continuation of an [await] receives the settlement of the promise. *)

Inductive Async (A : Type) : Type :=
| Ret (a : A)
| Throw (e : Reason)
| SetResponse (r : option string) (k : Async A)
| SetError (e : option string) (k : Async A)
| SetLoading (b : bool) (k : Async A)
| AwaitArrayBuffer (f : File) (k : Reason + list byte -> Async A)
| AwaitSendMessage (m : MessageData.t) (k : Reason + string -> Async A).

Arguments Ret {A} a.
Arguments Throw {A} e.
Arguments SetResponse {A} r k.
Arguments SetError {A} e k.
Arguments SetLoading {A} b k.
Arguments AwaitArrayBuffer {A} f k.
Arguments AwaitSendMessage {A} m k.

Fixpoint bind {A B} (p : Async A) (f : A -> Async B) : Async B :=
  match p with
  | Ret a => f a
  | Throw e => Throw e
  | SetResponse r k => SetResponse r (bind k f)
  | SetError e k => SetError e (bind k f)
  | SetLoading b k => SetLoading b (bind k f)
  | AwaitArrayBuffer x k => AwaitArrayBuffer x (fun r => bind (k r) f)
  | AwaitSendMessage m k => AwaitSendMessage m (fun r => bind (k r) f)
  end.

(** [try { p } catch (e) { h e }] *)
Fixpoint try_catch {A} (p : Async A) (h : Reason -> Async A) : Async A :=
  match p with
  | Ret a => Ret a
  | Throw e => h e
  | SetResponse r k => SetResponse r (try_catch k h)
  | SetError e k => SetError e (try_catch k h)
  | SetLoading b k => SetLoading b (try_catch k h)
  | AwaitArrayBuffer x k => AwaitArrayBuffer x (fun r => try_catch (k r) h)
  | AwaitSendMessage m k => AwaitSendMessage m (fun r => try_catch (k r) h)
  end.

(** [try { p } finally { fin }]: [fin] runs on every way out of [p], a
    [return] included, and the completion of [p] is kept. *)
Fixpoint try_finally {A} (p : Async A) (fin : Async unit) : Async A :=
  match p with
  | Ret a => bind fin (fun _ => Ret a)
  | Throw e => bind fin (fun _ => Throw e)
  | SetResponse r k => SetResponse r (try_finally k fin)
  | SetError e k => SetError e (try_finally k fin)
  | SetLoading b k => SetLoading b (try_finally k fin)
  | AwaitArrayBuffer x k => AwaitArrayBuffer x (fun r => try_finally (k r) fin)
  | AwaitSendMessage m k => AwaitSendMessage m (fun r => try_finally (k r) fin)
  end.

Declare Scope async_scope.
Delimit Scope async_scope with async.
Notation "x <- p ;; q" := (bind p (fun x => q))
  (at level 61, p at next level, right associativity) : async_scope.
Notation "p ;; q" := (bind p (fun _ => q))
  (at level 61, right associativity) : async_scope.

Definition setResponse (r : option string) : Async unit := SetResponse r (Ret tt).
Definition setError (e : option string) : Async unit := SetError e (Ret tt).
Definition setLoading (b : bool) : Async unit := SetLoading b (Ret tt).

(** [await p]: the value of a fulfilled promise, a throw of the reason of a
    rejected one. *)
Definition settled {A} (r : Reason + A) : Async A :=
  match r with
  | inl e => Throw e
  | inr a => Ret a
  end.

(** [await file.arrayBuffer()] *)
Definition arrayBuffer (f : File) : Async (list byte) := AwaitArrayBuffer f settled.

(** [await sendMessage(m)], the import from [./vertex]. *)
Definition sendMessage (m : MessageData.t) : Async string := AwaitSendMessage m settled.

(** The template literal [`${r}`] as a step of a handler: it yields the
    string or throws. *)
Definition templateLiteral (r : Reason) : Async string :=
  match interpolate r with
  | inl typeError => Throw typeError
  | inr s => Ret s
  end.

(** [handleProcessing], lines 38-64.  [formData] is the value the render
    that created the handler closed over.  ([e.preventDefault()] has no
    effect on the component's state.) *)
Definition handleProcessing (formData : FormData.t) : Async unit :=
  (setLoading true ;;
   try_finally
     (try_catch
        (setError None ;;
         match FormData.file formData with
         | None =>
             setError (Some "No file specified") ;;
             Ret tt
         | Some file =>
             buffer <- arrayBuffer file ;;
             let fileData := Base64.encode buffer in
             let f :=
               MessageData.mk
                 (MessageData.mkPart fileData (file_type file))
                 (FormData.prompt formData) in
             r <- sendMessage f ;;
             setResponse (Some r)
         end)
        (fun error =>
           message <- templateLiteral error ;;
           setError (Some message)))
     (setLoading false))%async.

(** [handleInputChange], lines 66-68: [{ ...formData, [field]: value }],
    for the one call the page makes, with [field = "prompt"] (line 107).
    For any other key the code would write [value] under that key; the
    record has no place for it and that branch, which the page never takes,
    is not modelled: the form data is returned as it is. *)
Definition handleInputChange (field : string) (value : string)
    (formData : FormData.t) : FormData.t :=
  if String.eqb field "prompt"
  then FormData.mk (FormData.file formData) value
  else formData.

(** [handleFileChange], lines 70-74.  [files[0]] of an empty [FileList] is
    [undefined], which the handler's [!formData.file] treats like [null]. *)
Definition handleFileChange (files : option (list File))
    (formData : FormData.t) : FormData.t :=
  match files with
  | Some fl => FormData.mk (hd_error fl) (FormData.prompt formData)
  | None => formData
  end.

(** ** The component's state

    The four [useState] cells (lines 30-36), the DOM value of the text
    input (the input has no [value] prop, so React does not control it), and
    the handler invocations suspended at an [await]. *)
Record State : Type := mkState {
  response : option string;
  error : option string;
  loading : bool;
  formData : FormData.t;
  promptInput : string;
  inflight : list (Async unit)
}.

Definition init : State :=
  mkState None None false (FormData.mk None "") "" [].

Definition with_response (r : option string) (st : State) : State :=
  mkState r (error st) (loading st) (formData st) (promptInput st) (inflight st).
Definition with_error (e : option string) (st : State) : State :=
  mkState (response st) e (loading st) (formData st) (promptInput st) (inflight st).
Definition with_loading (b : bool) (st : State) : State :=
  mkState (response st) (error st) b (formData st) (promptInput st) (inflight st).
Definition with_formData (fd : FormData.t) (st : State) : State :=
  mkState (response st) (error st) (loading st) fd (promptInput st) (inflight st).
Definition with_promptInput (s : string) (st : State) : State :=
  mkState (response st) (error st) (loading st) (formData st) s (inflight st).
Definition with_inflight (l : list (Async unit)) (st : State) : State :=
  mkState (response st) (error st) (loading st) (formData st) (promptInput st) l.

(** Runs a handler up to its next [await] (or to its end), applying the
    setters on the way.  The second component is the suspended rest. *)
Fixpoint advance (p : Async unit) (st : State) : State * option (Async unit) :=
  match p with
  | Ret _ => (st, None)
  | Throw _ => (st, None)
  | SetResponse r k => advance k (with_response r st)
  | SetError e k => advance k (with_error e st)
  | SetLoading b k => advance k (with_loading b st)
  | AwaitArrayBuffer _ _ => (st, Some p)
  | AwaitSendMessage _ _ => (st, Some p)
  end.

(** The setters a handler performs up to its next [await], in order. *)
Inductive Setter : Type :=
| ResponseSet (r : option string)
| ErrorSet (e : option string)
| LoadingSet (b : bool).

Fixpoint setters (p : Async unit) : list Setter :=
  match p with
  | Ret _ | Throw _ => []
  | SetResponse r k => ResponseSet r :: setters k
  | SetError e k => ErrorSet e :: setters k
  | SetLoading b k => LoadingSet b :: setters k
  | AwaitArrayBuffer _ _ | AwaitSendMessage _ _ => []
  end.

(** [Calls p m]: some settlement of the promises [p] awaits leads it to
    invoke [sendMessage(m)]. *)
Inductive Calls {A : Type} : Async A -> MessageData.t -> Prop :=
| calls_now m k : Calls (AwaitSendMessage m k) m
| calls_after_send m k r m' : Calls (k r) m' -> Calls (AwaitSendMessage m k) m'
| calls_after_buffer f k r m : Calls (k r) m -> Calls (AwaitArrayBuffer f k) m
| calls_set_response r k m : Calls k m -> Calls (SetResponse r k) m
| calls_set_error e k m : Calls k m -> Calls (SetError e k) m
| calls_set_loading b k m : Calls k m -> Calls (SetLoading b k) m.

(** The argument of the [sendMessage] call a suspended handler waits on. *)
Definition awaited_message (p : Async unit) : option MessageData.t :=
  match p with
  | AwaitSendMessage m _ => Some m
  | _ => None
  end.

(** ** Events *)

(** How an awaited promise settles. *)
Inductive Outcome : Type :=
| Rejected (e : Reason)
| BufferRead
| Replied (text : string).

Inductive Event : Type :=
| ChangePrompt (value : string)
| ChangeFile (files : list File)
| Drop (files : list File)
| Clear
| Submit
| Settle (i : nat) (o : Outcome).

(** Resumes a suspended handler with the settlement of its promise;
    [arrayBuffer()] fulfils with the bytes of its file. *)
Definition resume (p : Async unit) (o : Outcome) : option (Async unit) :=
  match p, o with
  | AwaitArrayBuffer _ k, Rejected e => Some (k (inl e))
  | AwaitArrayBuffer f k, BufferRead => Some (k (inr (file_bytes f)))
  | AwaitSendMessage _ k, Rejected e => Some (k (inl e))
  | AwaitSendMessage _ k, Replied text => Some (k (inr text))
  | _, _ => None
  end.

Fixpoint remove_nth {A} (i : nat) (l : list A) : list A :=
  match l, i with
  | [], _ => []
  | _ :: l', O => l'
  | x :: l', S i' => x :: remove_nth i' l'
  end.

Definition suspend (o : option (Async unit)) (l : list (Async unit)) : list (Async unit) :=
  match o with
  | Some p => l ++ [p]
  | None => l
  end.

(** Starts or resumes a handler and stores what is left of it. *)
Definition exec (p : Async unit) (st : State) : State :=
  let '(st', rest) := advance p st in
  with_inflight (suspend rest (inflight st')) st'.

(** The [onClick] of the Clear button, line 206. *)
Definition clear (st : State) : State :=
  with_formData (FormData.mk None "") st.

(** One event of the browser's event loop; [None] when the page cannot
    produce it in [st]:
    - the text input and the file input carry [disabled={loading}];
    - [onDrop] ignores the drop while [loading], and an empty list;
    - the submit button carries [disabled={loading}], and the form is
      submitted only if the [required] text input has a non-empty value;
    - the Clear button is never disabled. *)
Definition step (st : State) (ev : Event) : option State :=
  match ev with
  | ChangePrompt value =>
      if loading st then None
      else Some (with_promptInput value
                   (with_formData (handleInputChange "prompt" value (formData st)) st))
  | ChangeFile files =>
      if loading st then None
      else Some (with_formData (handleFileChange (Some files) (formData st)) st)
  | Drop files =>
      if loading st then Some st
      else match files with
           | [] => Some st
           | _ :: _ => Some (with_formData (handleFileChange (Some files) (formData st)) st)
           end
  | Clear => Some (clear st)
  | Submit =>
      if loading st || String.eqb (promptInput st) "" then None
      else Some (exec (handleProcessing (formData st)) st)
  | Settle i o =>
      match nth_error (inflight st) i with
      | None => None
      | Some p =>
          match resume p o with
          | None => None
          | Some p' => Some (exec p' (with_inflight (remove_nth i (inflight st)) st))
          end
      end
  end.

Fixpoint run (evs : list Event) (st : State) : option State :=
  match evs with
  | [] => Some st
  | ev :: evs' =>
      match step st ev with
      | Some st' => run evs' st'
      | None => None
      end
  end.

Definition reachable (st : State) : Prop :=
  exists evs, run evs init = Some st.

(** ** The rendered tree, as far as it depends on the state *)

Inductive Element : Type :=
| ReactMarkdown (children : string).

Record View : Type := mkView {
  alert : option string;          (* lines 84-91 *)
  promptDisabled : bool;          (* line 100 *)
  fileName : option string;       (* lines 129-133 *)
  fileInputDisabled : bool;       (* line 153 *)
  submitDisabled : bool;          (* line 190 *)
  submitLabel : string;           (* lines 194-201 *)
  output : option Element         (* lines 213-222 *)
}.

Definition render (st : State) : View :=
  mkView
    (if truthy (error st) then error st else None)
    (loading st)
    (option_map file_name (FormData.file (formData st)))
    (loading st)
    (loading st)
    (if loading st then "Processing..." else "Analyze")
    (match response st with
     | Some text => if truthy (Some text) then Some (ReactMarkdown text) else None
     | None => None
     end).

(** ** The four response states of the specification, read off the fields *)

Definition isLoading (st : State) : bool := loading st.
Definition isSuccess (st : State) : bool :=
  match response st with Some _ => true | None => false end.
Definition isFailure (st : State) : bool :=
  match error st with Some _ => true | None => false end.
Definition isIdle (st : State) : bool :=
  negb (isLoading st) && negb (isSuccess st) && negb (isFailure st).

(** How many of Loading, Success and Failure the fields encode. *)
Definition active (st : State) : nat :=
  (if isLoading st then 1 else 0) + (if isSuccess st then 1 else 0)
  + (if isFailure st then 1 else 0).

(** ** What a suspended [handleProcessing] looks like *)

(** [p] runs to its end without another [await], leaving [upd] and
    [setLoading(false)] behind. *)
Definition finishes (p : Async unit) (upd : State -> State) : Prop :=
  forall st, advance p st = (with_loading false (upd st), None).

(** What the [catch] block leaves behind for a rejection with [e]: the
    message, or nothing when [`${e}`] itself throws. *)
Definition on_rejection (e : Reason) (st : State) : State :=
  match interpolate e with
  | inr s => with_error (Some s) st
  | inl _ => st
  end.

(** The handler's way out of a rejection with [e]: the [catch] block, then
    [finally]. *)
Definition failed (e : Reason) : Async unit :=
  match interpolate e with
  | inr s => SetError (Some s) (SetLoading false (Ret tt))
  | inl typeError => SetLoading false (Throw typeError)
  end.

(** The text of the error message the page shows (none shown: empty). *)
Definition displayedError (v : View) : string :=
  match alert v with
  | Some s => s
  | None => ""
  end.

(** The Markdown source of the output the page shows (none shown: empty). *)
Definition displayedMarkdown (v : View) : string :=
  match output v with
  | Some (ReactMarkdown s) => s
  | None => ""
  end.

(** [CallsOn bs p m]: in a run in which [arrayBuffer()], if it fulfils,
    delivers the bytes [bs], the handler [p] invokes [sendMessage(m)]. *)
Inductive CallsOn {A : Type} (bs : list byte) : Async A -> MessageData.t -> Prop :=
| on_now m k : CallsOn bs (AwaitSendMessage m k) m
| on_after_send m k r m' : CallsOn bs (k r) m' -> CallsOn bs (AwaitSendMessage m k) m'
| on_buffer_read f k m : CallsOn bs (k (inr bs)) m -> CallsOn bs (AwaitArrayBuffer f k) m
| on_buffer_failed f k e m :
    CallsOn bs (k (inl e)) m -> CallsOn bs (AwaitArrayBuffer f k) m
| on_set_response r k m : CallsOn bs k m -> CallsOn bs (SetResponse r k) m
| on_set_error e k m : CallsOn bs k m -> CallsOn bs (SetError e k) m
| on_set_loading b k m : CallsOn bs k m -> CallsOn bs (SetLoading b k) m.

(** Suspended at [await sendMessage(f)]. *)
Definition awaits_reply (p : Async unit) : Prop :=
  exists m k,
    p = AwaitSendMessage m k
    /\ (forall e, finishes (k (inl e)) (on_rejection e))
    /\ (forall text, finishes (k (inr text)) (with_response (Some text))).

(** Suspended at [await formData.file.arrayBuffer()]. *)
Definition awaits_buffer (p : Async unit) : Prop :=
  exists f k,
    p = AwaitArrayBuffer f k
    /\ (forall e, finishes (k (inl e)) (on_rejection e))
    /\ (forall bs, awaits_reply (k (inr bs))).

Definition Pending (p : Async unit) : Prop := awaits_buffer p \/ awaits_reply p.

(** The invariant of the event loop: no handler is suspended and [loading]
    is off, or exactly one is and [loading] is on with no error shown. *)
Definition Inv (st : State) : Prop :=
  match inflight st with
  | [] => loading st = false
  | [p] => loading st = true /\ error st = None /\ Pending p
  | _ :: _ :: _ => False
  end.

(** ** Sample data *)

Definition photo : File :=
  mkFile "ingredients.jpg" "image/jpeg" ["M"%byte; "a"%byte; "n"%byte; "!"%byte].

(** Type a question, drop a file, submit, and let both promises fulfil. *)
Definition ask_once : list Event :=
  [ChangePrompt "Is this good for me?"; Drop [photo]; Submit;
   Settle 0 BufferRead; Settle 0 (Replied "Looks **fine**.")].

Definition state_after (evs : list Event) : State :=
  match run evs init with
  | Some st => st
  | None => init
  end.

(** ** Proof automation *)

(** Linear arithmetic over [N] with division and remainder by constants. *)
Ltac euclid := zify; Z.to_euclidean_division_equations; lia.

(** * Facts *)

(** ** Base64 round trip *)

Module Base64Facts.

Import Base64.
Local Open Scope N_scope.

Lemma land_shifted_low x y n : y < 2 ^ n -> N.land (x * 2 ^ n) y = 0.
Proof.
  intros Hy. apply N.bits_inj_0. intros i. rewrite N.land_spec.
  destruct (N.lt_ge_cases i n) as [Hlt | Hge].
  - now rewrite N.mul_pow2_bits_low.
  - rewrite <- (N.mod_small y (2 ^ n)) by assumption.
    rewrite N.mod_pow2_bits_high by assumption.
    apply andb_false_r.
Qed.

Lemma lor_shiftl_add x y n : y < 2 ^ n -> N.lor (N.shiftl x n) y = x * 2 ^ n + y.
Proof.
  intros Hy. rewrite N.shiftl_mul_pow2.
  pose proof (land_shifted_low x y n Hy) as Hd.
  now rewrite (N.add_nocarry_lxor _ _ Hd), (N.lxor_lor _ _ Hd).
Qed.

Lemma land_mask a n : N.land a (N.ones n) = a mod 2 ^ n.
Proof. apply N.land_ones. Qed.

Lemma sextet0_arith a : sextet0 a = a / 4.
Proof. unfold sextet0. now rewrite N.shiftr_div_pow2. Qed.

Lemma sextet1_arith a b : b < 256 -> sextet1 a b = (a mod 4) * 16 + b / 16.
Proof.
  intros Hb. unfold sextet1.
  change 3 with (N.ones 2). rewrite land_mask, N.shiftr_div_pow2.
  change (2 ^ 2) with 4. change (2 ^ 4) with 16.
  rewrite lor_shiftl_add; change (2 ^ 4) with 16.
  - reflexivity.
  - apply N.Div0.div_lt_upper_bound. lia.
Qed.

Lemma sextet2_arith b c : c < 256 -> sextet2 b c = (b mod 16) * 4 + c / 64.
Proof.
  intros Hc. unfold sextet2.
  change 15 with (N.ones 4). rewrite land_mask, N.shiftr_div_pow2.
  change (2 ^ 4) with 16. change (2 ^ 6) with 64.
  rewrite lor_shiftl_add; change (2 ^ 2) with 4.
  - reflexivity.
  - apply N.Div0.div_lt_upper_bound. lia.
Qed.

Lemma sextet3_arith c : sextet3 c = c mod 64.
Proof. unfold sextet3. change 63 with (N.ones 6). now rewrite land_mask. Qed.

Lemma octet0_arith s0 s1 : s1 < 64 -> octet0 s0 s1 = s0 * 4 + s1 / 16.
Proof.
  intros H. unfold octet0. rewrite N.shiftr_div_pow2. change (2 ^ 4) with 16.
  rewrite lor_shiftl_add; change (2 ^ 2) with 4.
  - reflexivity.
  - apply N.Div0.div_lt_upper_bound. lia.
Qed.

Lemma octet1_arith s1 s2 : s2 < 64 -> octet1 s1 s2 = (s1 mod 16) * 16 + s2 / 4.
Proof.
  intros H. unfold octet1.
  change 15 with (N.ones 4). rewrite land_mask, N.shiftr_div_pow2.
  change (2 ^ 4) with 16. change (2 ^ 2) with 4.
  rewrite lor_shiftl_add; change (2 ^ 4) with 16.
  - reflexivity.
  - apply N.Div0.div_lt_upper_bound. lia.
Qed.

Lemma octet2_arith s2 s3 : s3 < 64 -> octet2 s2 s3 = (s2 mod 4) * 64 + s3.
Proof.
  intros H. unfold octet2.
  change 3 with (N.ones 2). rewrite land_mask. change (2 ^ 2) with 4.
  rewrite lor_shiftl_add; change (2 ^ 6) with 64.
  - reflexivity.
  - assumption.
Qed.

Lemma sextet0_lt a : a < 256 -> sextet0 a < 64.
Proof. intros. rewrite sextet0_arith. euclid. Qed.

Lemma sextet1_lt a b : b < 256 -> sextet1 a b < 64.
Proof. intros. rewrite sextet1_arith by assumption. euclid. Qed.

Lemma sextet2_lt b c : c < 256 -> sextet2 b c < 64.
Proof. intros. rewrite sextet2_arith by assumption. euclid. Qed.

Lemma sextet3_lt c : sextet3 c < 64.
Proof. rewrite sextet3_arith. euclid. Qed.

Lemma octet0_sextets a b : a < 256 -> b < 256 ->
  octet0 (sextet0 a) (sextet1 a b) = a.
Proof.
  intros Ha Hb. rewrite octet0_arith by now apply sextet1_lt.
  rewrite sextet0_arith, sextet1_arith by assumption. euclid.
Qed.

Lemma octet1_sextets a b c : b < 256 -> c < 256 ->
  octet1 (sextet1 a b) (sextet2 b c) = b.
Proof.
  intros Hb Hc. rewrite octet1_arith by now apply sextet2_lt.
  rewrite sextet1_arith, sextet2_arith by assumption. euclid.
Qed.

Lemma octet2_sextets b c : c < 256 ->
  octet2 (sextet2 b c) (sextet3 c) = c.
Proof.
  intros Hc. rewrite octet2_arith by apply sextet3_lt.
  rewrite sextet2_arith, sextet3_arith by assumption. euclid.
Qed.

Lemma enc6_table : forallb enc6_ok (map N.of_nat (seq 0 64)) = true.
Proof. vm_compute. reflexivity. Qed.

Lemma enc6_ok_true n : n < 64 -> enc6_ok n = true.
Proof.
  intros Hn. pose proof enc6_table as Ht.
  rewrite forallb_forall in Ht. apply Ht.
  apply in_map_iff. exists (N.to_nat n). split.
  - apply N2Nat.id.
  - apply in_seq. lia.
Qed.

Lemma dec6_enc6 n : n < 64 -> dec6 (enc6 n) = Some n.
Proof.
  intros Hn. pose proof (enc6_ok_true n Hn) as H. unfold enc6_ok in H.
  apply andb_prop in H. destruct H as [H _].
  destruct (dec6 (enc6 n)) as [m |]; [| discriminate].
  apply N.eqb_eq in H. now subst.
Qed.

Lemma enc6_not_pad n : n < 64 -> Ascii.eqb (enc6 n) pad = false.
Proof.
  intros Hn. pose proof (enc6_ok_true n Hn) as H. unfold enc6_ok in H.
  apply andb_prop in H. destruct H as [_ H].
  now apply negb_true_iff in H.
Qed.

Lemma to_N_lt (x : byte) : Byte.to_N x < 256.
Proof. pose proof (Byte.to_N_bounded x). lia. Qed.

(** Induction over a list of octets three at a time, the way [encode]
    consumes it. *)
Lemma octets_ind (P : list byte -> Prop) :
  P [] ->
  (forall x, P [x]) ->
  (forall x y, P [x; y]) ->
  (forall x y z rest, P rest -> P (x :: y :: z :: rest)) ->
  forall bs, P bs.
Proof.
  intros H0 H1 H2 H3.
  fix IH 1. intros [| x [| y [| z rest]]].
  - exact H0.
  - apply H1.
  - apply H2.
  - apply H3, IH.
Qed.

Lemma zero_lt_256 : 0 < 256.
Proof. reflexivity. Qed.

Create HintDb base64 discriminated.
#[local] Hint Resolve to_N_lt zero_lt_256 sextet0_lt sextet1_lt sextet2_lt sextet3_lt
  : base64.

(** Decodes one encoded quantum: each character back to its 6-bit group,
    the groups back to the octets. *)
Ltac quantum :=
  cbn [encode decode];
  repeat (first [ rewrite dec6_enc6 by auto with base64
                | rewrite enc6_not_pad by auto with base64
                | rewrite octet0_sextets by auto with base64
                | rewrite octet1_sextets by auto with base64
                | rewrite octet2_sextets by auto with base64
                | rewrite Byte.of_to_N ];
          cbn [obind]).

Lemma decode_encode (bs : list byte) : decode (encode bs) = Some bs.
Proof.
  induction bs as [| x | x y | x y z rest IH] using octets_ind.
  - reflexivity.
  - quantum. reflexivity.
  - quantum. reflexivity.
  - quantum. rewrite IH. reflexivity.
Qed.

Lemma encode_length (bs : list byte) :
  String.length (encode bs) = (4 * ((List.length bs + 2) / 3))%nat.
Proof.
  induction bs as [| x | x y | x y z rest IH] using octets_ind;
    try reflexivity.
  cbn [encode String.length List.length]. rewrite IH.
  replace (S (S (S (List.length rest))) + 2)%nat
    with (List.length rest + 2 + 1 * 3)%nat by lia.
  rewrite Nat.div_add by lia. lia.
Qed.

End Base64Facts.

(** ** The shape of [handleProcessing] *)

Lemma advance_frame (p : Async unit) : forall st,
  formData (fst (advance p st)) = formData st
  /\ promptInput (fst (advance p st)) = promptInput st
  /\ inflight (fst (advance p st)) = inflight st.
Proof.
  induction p as [a | e | r k IH | e k IH | b k IH | f k IH | m k IH];
    intros st; cbn [advance fst]; auto.
  - destruct (IH (with_response r st)) as (? & ? & ?); auto.
  - destruct (IH (with_error e st)) as (? & ? & ?); auto.
  - destruct (IH (with_loading b st)) as (? & ? & ?); auto.
Qed.

Lemma handleProcessing_no_file (fd : FormData.t) :
  FormData.file fd = None ->
  handleProcessing fd =
  SetLoading true (SetError None
    (SetError (Some "No file specified") (SetLoading false (Ret tt)))).
Proof. destruct fd as [f p]; cbn [FormData.file]; intros ->; reflexivity. Qed.

Lemma handleProcessing_file (fd : FormData.t) (f : File) :
  FormData.file fd = Some f ->
  exists k,
    handleProcessing fd = SetLoading true (SetError None (AwaitArrayBuffer f k))
    /\ (forall e, k (inl e) = failed e)
    /\ (forall bs, exists k',
          k (inr bs) =
          AwaitSendMessage
            (MessageData.mk (MessageData.mkPart (Base64.encode bs) (file_type f))
               (FormData.prompt fd)) k'
          /\ (forall e, k' (inl e) = failed e)
          /\ (forall text, k' (inr text) = SetResponse (Some text) (SetLoading false (Ret tt)))).
Proof.
  destruct fd as [f0 p]; cbn [FormData.file FormData.prompt]; intros ->.
  eexists. split; [reflexivity |]. split; [intros [v | d |]; reflexivity |].
  intros bs. eexists. split; [reflexivity |].
  split; [intros [v | d |]; reflexivity | reflexivity].
Qed.

Lemma finishes_error (e : option string) :
  finishes (SetError e (SetLoading false (Ret tt))) (with_error e).
Proof. intros st. reflexivity. Qed.

Lemma finishes_failed (e : Reason) : finishes (failed e) (on_rejection e).
Proof. intros st. destruct e as [v | d |]; reflexivity. Qed.

Lemma finishes_response (r : option string) :
  finishes (SetResponse r (SetLoading false (Ret tt))) (with_response r).
Proof. intros st. reflexivity. Qed.

Lemma handleProcessing_suspends (fd : FormData.t) (f : File) :
  FormData.file fd = Some f ->
  exists p, awaits_buffer p
    /\ forall st, advance (handleProcessing fd) st
                  = (with_error None (with_loading true st), Some p).
Proof.
  intros Hf. destruct (handleProcessing_file fd f Hf) as (k & Hk & Herr & Hok).
  exists (AwaitArrayBuffer f k). split.
  - exists f, k. split; [reflexivity |]. split.
    + intros e. rewrite Herr. apply finishes_failed.
    + intros bs. destruct (Hok bs) as (k' & -> & He' & Ht').
      eexists _, k'. split; [reflexivity |]. split.
      * intros e. rewrite He'. apply finishes_failed.
      * intros t. rewrite Ht'. apply finishes_response.
  - intros st. rewrite Hk. reflexivity.
Qed.

(** ** The invariant of the event loop *)

Lemma Inv_init : Inv init.
Proof. reflexivity. Qed.

Lemma Inv_frame (st st' : State) :
  loading st' = loading st -> error st' = error st -> inflight st' = inflight st ->
  Inv st -> Inv st'.
Proof. unfold Inv. intros -> -> ->. auto. Qed.

Lemma Inv_idle (st : State) : Inv st -> loading st = false -> inflight st = [].
Proof.
  unfold Inv. destruct (inflight st) as [| p [| q l]]; auto.
  - intros (H & _) H'. congruence.
  - contradiction.
Qed.

Lemma exec_finishes p upd st :
  finishes p upd ->
  exec p st = with_inflight (inflight (upd st)) (with_loading false (upd st)).
Proof. intros H. unfold exec. rewrite H. reflexivity. Qed.

Lemma exec_submit_no_file st :
  FormData.file (formData st) = None ->
  exec (handleProcessing (formData st)) st
  = with_loading false (with_error (Some "No file specified") st).
Proof.
  intros Hf. rewrite (handleProcessing_no_file _ Hf). destruct st; reflexivity.
Qed.

Lemma Inv_step (st st' : State) (ev : Event) :
  Inv st -> step st ev = Some st' -> Inv st'.
Proof.
  intros HI Hs. destruct ev as [v | fl | fl | | | i o]; cbn [step] in Hs.
  - destruct (loading st) eqn:Hl; [discriminate |]. injection Hs as <-.
    revert HI. now apply Inv_frame.
  - destruct (loading st) eqn:Hl; [discriminate |]. injection Hs as <-.
    revert HI. now apply Inv_frame.
  - destruct (loading st) eqn:Hl; [injection Hs as <-; assumption |].
    destruct fl; injection Hs as <-; [assumption |].
    revert HI. now apply Inv_frame.
  - injection Hs as <-. revert HI. now apply Inv_frame.
  - destruct (loading st) eqn:Hl; [discriminate |]. cbn [orb] in Hs.
    destruct (String.eqb (promptInput st) ""); [discriminate |].
    injection Hs as <-.
    pose proof (Inv_idle st HI Hl) as Hin.
    destruct (FormData.file (formData st)) as [f |] eqn:Hf.
    + destruct (handleProcessing_suspends _ f Hf) as (p & Hp & Hadv).
      unfold exec. rewrite Hadv. unfold Inv. cbn.
      rewrite Hin. cbn. repeat split. now left.
    + rewrite (exec_submit_no_file st Hf). unfold Inv. cbn. now rewrite Hin.
  - destruct (nth_error (inflight st) i) as [p |] eqn:Hn; [| discriminate].
    destruct (resume p o) as [p' |] eqn:Hr; [| discriminate].
    injection Hs as <-.
    unfold Inv in HI. destruct (inflight st) as [| q [| q' l]] eqn:Hin;
      [destruct i; discriminate | | contradiction].
    destruct HI as (Hl & He & Hq).
    destruct i as [| i]; [| destruct i; discriminate].
    cbn in Hn. injection Hn as ->. cbn [remove_nth].
    destruct Hq as [(f & k & -> & Hrej & Hok) | (m & k & -> & Hrej & Hok)].
    + destruct o as [e | | t]; cbn in Hr; try discriminate; injection Hr as <-.
      * rewrite (exec_finishes _ _ _ (Hrej e)). destruct e as [v | d |]; reflexivity.
      * destruct (Hok (file_bytes f)) as (m & k' & Hk' & Hrej' & Hok').
        rewrite Hk'. unfold exec, Inv. cbn. repeat split; auto.
        right. exists m, k'. auto.
    + destruct o as [e | | t]; cbn in Hr; try discriminate; injection Hr as <-.
      * rewrite (exec_finishes _ _ _ (Hrej e)). destruct e as [v | d |]; reflexivity.
      * rewrite (exec_finishes _ _ _ (Hok t)). reflexivity.
Qed.

Lemma Inv_run (evs : list Event) : forall st st',
  Inv st -> run evs st = Some st' -> Inv st'.
Proof.
  induction evs as [| ev evs IH]; intros st st' HI Hr; cbn [run] in Hr.
  - now injection Hr as <-.
  - destruct (step st ev) as [st1 |] eqn:Hs; [| discriminate].
    eapply IH; [| eassumption]. eapply Inv_step; eassumption.
Qed.

Lemma reachable_Inv (st : State) : reachable st -> Inv st.
Proof. intros [evs Hr]. eapply Inv_run; [apply Inv_init | eassumption]. Qed.

(** ** The claims of the specification *)

Lemma reachable_state_after (evs : list Event) :
  run evs init <> None -> reachable (state_after evs).
Proof.
  intros H. exists evs. unfold state_after.
  destruct (run evs init); [reflexivity | contradiction].
Qed.

Lemma reachable_step (st st' : State) (ev : Event) :
  reachable st -> step st ev = Some st' -> reachable st'.
Proof.
  intros [evs Hr] Hs. exists (evs ++ [ev])%list.
  revert Hr. generalize init. induction evs as [| e evs IH]; intros s Hr; cbn in *.
  - injection Hr as ->. now rewrite Hs.
  - destruct (step s e); [now apply IH | discriminate].
Qed.

(** A handler that runs to its end without suspending makes no call. *)
Lemma Calls_suspends (p : Async unit) (m : MessageData.t) :
  Calls p m -> forall st, snd (advance p st) <> None.
Proof.
  induction 1 as [m k | m k r m' _ _ | f k r m _ _
                  | r k m _ IH | e k m _ IH | b k m _ IH];
    intros st; cbn [advance snd]; try discriminate; apply IH.
Qed.

Lemma finishes_no_call (p : Async unit) (upd : State -> State) (m : MessageData.t) :
  finishes p upd -> ~ Calls p m.
Proof.
  intros Hf Hc. apply (Calls_suspends p m Hc init). now rewrite (Hf init).
Qed.

Lemma Calls_failed (e : Reason) (m : MessageData.t) : ~ Calls (failed e) m.
Proof. apply (finishes_no_call _ _ m (finishes_failed e)). Qed.

Lemma Calls_settled_error e m :
  ~ Calls (SetError (Some (template e)) (SetLoading false (Ret tt))) m.
Proof.
  intros H. inversion H as [| | | | ? ? ? H1 |]; subst.
  inversion H1 as [| | | | | ? ? ? H2]; subst. inversion H2.
Qed.

Lemma Calls_settled_response r m :
  ~ Calls (SetResponse r (SetLoading false (Ret tt))) m.
Proof.
  intros H. inversion H as [| | | ? ? ? H1 | |]; subst.
  inversion H1 as [| | | | | ? ? ? H2]; subst. inversion H2.
Qed.

(** Whatever [handleProcessing] sends was composed from a selected file
    and the prompt of the form data it closed over. *)
Lemma Calls_handleProcessing (fd : FormData.t) (m : MessageData.t) :
  Calls (handleProcessing fd) m ->
  exists f bs,
    FormData.file fd = Some f
    /\ m = MessageData.mk (MessageData.mkPart (Base64.encode bs) (file_type f))
             (FormData.prompt fd).
Proof.
  intros H. destruct (FormData.file fd) as [f |] eqn:Hf.
  - exists f. destruct (handleProcessing_file fd f Hf) as (k & Hk & Herr & Hok).
    rewrite Hk in H.
    inversion H as [| | | | | ? ? ? H1]; subst.
    inversion H1 as [| | | | ? ? ? H2 |]; subst.
    inversion H2 as [| | ? ? r ? H3 | | |]; subst.
    destruct r as [e | bs].
    + rewrite Herr in H3. now apply Calls_failed in H3.
    + exists bs. destruct (Hok bs) as (k' & Hk' & Herr' & Hok').
      rewrite Hk' in H3.
      inversion H3 as [| ? ? r ? H4 | | | |]; subst; [auto |].
      destruct r as [e | t].
      * rewrite Herr' in H4. now apply Calls_failed in H4.
      * rewrite Hok' in H4. now apply Calls_settled_response in H4.
  - rewrite (handleProcessing_no_file fd Hf) in H.
    inversion H as [| | | | | ? ? ? H1]; subst.
    inversion H1 as [| | | | ? ? ? H2 |]; subst.
    now apply Calls_settled_error with (e := JsString "No file specified") in H2.
Qed.

(** C1. A submission with no file selected invokes [sendMessage] under no
    circumstances, suspends on no promise, and leaves the error state at
    exactly ["No file specified"]. *)
Theorem submit_without_file (st st' : State) :
  FormData.file (formData st) = None ->
  step st Submit = Some st' ->
  (forall m, ~ Calls (handleProcessing (formData st)) m)
  /\ inflight st' = inflight st
  /\ error st' = Some "No file specified".
Proof.
  intros Hf Hs. split.
  - intros m H. apply Calls_handleProcessing in H.
    destruct H as (f & bs & H & _). congruence.
  - cbn [step] in Hs.
    destruct (loading st || String.eqb (promptInput st) ""); [discriminate |].
    injection Hs as <-. rewrite (exec_submit_no_file st Hf). split; reflexivity.
Qed.

Lemma submit_without_file_witness :
  let st := state_after [ChangePrompt "Is this good for me?"] in
  let st' := state_after [ChangePrompt "Is this good for me?"; Submit] in
  FormData.file (formData st) = None
  /\ step st Submit = Some st'
  /\ (forall m, ~ Calls (handleProcessing (formData st)) m)
  /\ inflight st' = inflight st
  /\ error st' = Some "No file specified".
Proof.
  intros st st'. split; [reflexivity |]. split; [reflexivity |].
  apply (submit_without_file st st'); reflexivity.
Defined.

(** The state in which a reply or a failure of [sendMessage] arrives. *)
Lemma awaiting_reply (st : State) (i : nat) (p : Async unit) (m : MessageData.t) :
  reachable st ->
  nth_error (inflight st) i = Some p ->
  awaited_message p = Some m ->
  i = 0%nat /\ inflight st = [p] /\ loading st = true /\ error st = None
  /\ exists k,
       p = AwaitSendMessage m k
       /\ (forall e, finishes (k (inl e)) (on_rejection e))
       /\ (forall text, finishes (k (inr text)) (with_response (Some text))).
Proof.
  intros Hr Hn Hm. apply reachable_Inv in Hr. unfold Inv in Hr.
  destruct (inflight st) as [| q [| q' l]]; [destruct i; discriminate | | contradiction].
  destruct Hr as (Hl & He & Hq).
  destruct i as [| i]; [| destruct i; discriminate].
  cbn in Hn. injection Hn as ->.
  destruct Hq as [(f & k & -> & _) | (m' & k & -> & Hrej & Hok)]; [discriminate |].
  cbn in Hm. injection Hm as ->. repeat split; auto. now exists k.
Qed.

(** C2, as written, fails: a failed second submission leaves the text of
    the first one in [response] next to the new [error]. *)
Lemma success_and_failure_together :
  ~ (forall st, reachable st -> (active st <= 1)%nat).
Proof.
  intros H.
  specialize (H (state_after (ask_once ++
                   [Submit; Settle 0 BufferRead;
                    Settle 0 (Rejected (JsError "Error" "quota exceeded"))]))).
  assert (Hr : reachable (state_after (ask_once ++
                   [Submit; Settle 0 BufferRead;
                    Settle 0 (Rejected (JsError "Error" "quota exceeded"))])))
    by (apply reachable_state_after; discriminate).
  specialize (H Hr). vm_compute in H. lia.
Qed.

(** C2, amended. In every reachable state Loading and Failure are never
    encoded together ([error] is [null] while [loading] is [true]), so at
    most two of the three are; [response] is independent of both. *)
Theorem loading_excludes_failure (st : State) :
  reachable st ->
  isLoading st && isFailure st = false /\ (active st <= 2)%nat.
Proof.
  intros Hr. apply reachable_Inv in Hr. unfold Inv in Hr.
  unfold active, isLoading, isFailure, isSuccess.
  destruct (inflight st) as [| q [| q' l]]; [| | contradiction].
  - rewrite Hr. split; [reflexivity |].
    destruct (response st), (error st); cbn; lia.
  - destruct Hr as (-> & -> & _). split; [reflexivity |].
    destruct (response st); cbn; lia.
Qed.

Lemma loading_excludes_failure_witness :
  reachable (state_after (ask_once ++ [Submit]))
  /\ isLoading (state_after (ask_once ++ [Submit])) = true
  /\ isSuccess (state_after (ask_once ++ [Submit])) = true
  /\ isLoading (state_after (ask_once ++ [Submit]))
     && isFailure (state_after (ask_once ++ [Submit])) = false
  /\ (active (state_after (ask_once ++ [Submit])) <= 2)%nat.
Proof.
  split; [apply reachable_state_after; discriminate |].
  split; [reflexivity |]. split; [reflexivity |].
  apply (loading_excludes_failure (state_after (ask_once ++ [Submit]))).
  apply reachable_state_after; discriminate.
Defined.

(** C3, as written, fails: Clear pressed in a Success state leaves the
    response text in place. *)
Lemma clear_keeps_success :
  ~ (forall st, reachable st ->
       isSuccess st || isFailure st = true -> isIdle (clear st) = true).
Proof.
  intros H. specialize (H (state_after ask_once)).
  assert (Hr : reachable (state_after ask_once))
    by (apply reachable_state_after; discriminate).
  specialize (H Hr eq_refl). discriminate H.
Qed.

(** C3, amended. The Clear button is always available and leaves
    [response], [error] and [loading] as they are: the response state is
    the same before and after it. *)
Theorem clear_keeps_response_state (st : State) :
  step st Clear = Some (clear st)
  /\ response (clear st) = response st
  /\ error (clear st) = error st
  /\ loading (clear st) = loading st
  /\ isIdle (clear st) = isIdle st.
Proof. repeat split. Qed.

(** C4. The claim fails on the code: after typing a question, pressing
    Clear and dropping a file, the [required] text input still holds the
    question while [formData.prompt] is empty, and Submit reaches
    [sendMessage] with an empty prompt. *)
Theorem empty_prompt_reaches_sendMessage :
  option_map (fun st => (promptInput st, map awaited_message (inflight st)))
    (run [ChangePrompt "hi"; Clear; Drop [photo]; Submit; Settle 0 BufferRead] init)
  = Some ("hi",
          [Some (MessageData.mk (MessageData.mkPart "TWFuIQ==" "image/jpeg") "")]).
Proof. reflexivity. Qed.

(** C5. When the file's bytes have been read, the handler waits on
    [sendMessage(f)] where [f.file.contents] is Base64 text that decodes
    to exactly the bytes of the selected file. *)
Theorem payload_round_trip (fd : FormData.t) (f : File) (st : State) :
  FormData.file fd = Some f ->
  exists p p' m,
    snd (advance (handleProcessing fd) st) = Some p
    /\ resume p BufferRead = Some p'
    /\ awaited_message p' = Some m
    /\ Base64.decode (MessageData.contents (MessageData.file m))
       = Some (file_bytes f).
Proof.
  intros Hf. destruct (handleProcessing_file fd f Hf) as (k & Hk & _ & Hok).
  destruct (Hok (file_bytes f)) as (k' & Hk' & _).
  exists (AwaitArrayBuffer f k). eexists. eexists.
  split; [rewrite Hk; reflexivity |].
  split; [reflexivity |].
  rewrite Hk'. split; [reflexivity |].
  apply Base64Facts.decode_encode.
Qed.

Lemma payload_round_trip_witness :
  FormData.file (FormData.mk (Some photo) "Is this good for me?") = Some photo
  /\ exists p p' m,
       snd (advance (handleProcessing (FormData.mk (Some photo) "Is this good for me?"))
              init) = Some p
       /\ resume p BufferRead = Some p'
       /\ awaited_message p' = Some m
       /\ Base64.decode (MessageData.contents (MessageData.file m))
          = Some (file_bytes photo).
Proof.
  split; [reflexivity |].
  apply (payload_round_trip (FormData.mk (Some photo) "Is this good for me?") photo init).
  reflexivity.
Defined.

(** C6. When the awaited [sendMessage] call rejects with [e], whatever [e]
    is, the handler completes with [loading] false and nothing in flight.
    If [`${e}`] is the string [s], [error] is exactly [s] and the error
    message the page displays is [s]; if [`${e}`] itself throws (a
    [Symbol], an object with no string form), [setError] is not reached,
    [error] stays [null] and no message is displayed. *)
Theorem failure_displays_reason (st : State) (i : nat) (p : Async unit)
    (m : MessageData.t) (e : Reason) :
  reachable st ->
  nth_error (inflight st) i = Some p ->
  awaited_message p = Some m ->
  exists st',
    step st (Settle i (Rejected e)) = Some st'
    /\ loading st' = false
    /\ inflight st' = []
    /\ match interpolate e with
       | inr s => error st' = Some s /\ displayedError (render st') = s
       | inl _ => error st' = None /\ displayedError (render st') = ""
       end.
Proof.
  intros Hr Hn Hm.
  destruct (awaiting_reply st i p m Hr Hn Hm)
    as (-> & Hin & _ & He & k & -> & Hrej & _).
  eexists. cbn [step]. rewrite Hn. cbn [resume]. split; [reflexivity |].
  rewrite (exec_finishes _ _ _ (Hrej e)), Hin.
  unfold on_rejection. destruct (interpolate e) as [t | s].
  - split; [reflexivity |]. split; [reflexivity |].
    unfold displayedError, render. cbn. rewrite He. split; reflexivity.
  - split; [reflexivity |]. split; [reflexivity |]. split; [reflexivity |].
    unfold displayedError, render. cbn.
    destruct (String.eqb s "") eqn:Es; [| reflexivity].
    apply String.eqb_eq in Es. now subst.
Qed.

Lemma failure_displays_reason_witness :
  let st := state_after [ChangePrompt "Is this good for me?"; Drop [photo];
                         Submit; Settle 0 BufferRead] in
  reachable st
  /\ (exists p m, nth_error (inflight st) 0 = Some p /\ awaited_message p = Some m)
  /\ exists st',
       step st (Settle 0 (Rejected (JsError "Error" "quota exceeded"))) = Some st'
       /\ loading st' = false
       /\ inflight st' = []
       /\ error st' = Some "Error: quota exceeded"
       /\ displayedError (render st') = "Error: quota exceeded".
Proof.
  intros st.
  assert (Hr : reachable st) by (apply reachable_state_after; discriminate).
  split; [exact Hr |].
  split; [eexists; eexists; split; reflexivity |].
  eapply (failure_displays_reason st 0 _ _ (JsError "Error" "quota exceeded") Hr);
    reflexivity.
Defined.

Example symbol_rejection_skips_setError :
  option_map (fun st => (error st, loading st, displayedError (render st)))
    (run [ChangePrompt "Is this good for me?"; Drop [photo]; Submit;
          Settle 0 BufferRead; Settle 0 (Rejected (JsSymbol "oops"))] init)
  = Some (None, false, "").
Proof. reflexivity. Qed.

(** C7. When the awaited [sendMessage] call fulfils with [text], the
    handler completes with [response] set to exactly [text], and the
    Markdown source of the output the page displays is exactly [text]: the
    [<ReactMarkdown>] element receives [text] unchanged as its children
    (for the empty text, whose rendering is empty, no element is mounted). *)
Theorem reply_is_displayed (st : State) (i : nat) (p : Async unit)
    (m : MessageData.t) (text : string) :
  reachable st ->
  nth_error (inflight st) i = Some p ->
  awaited_message p = Some m ->
  exists st',
    step st (Settle i (Replied text)) = Some st'
    /\ response st' = Some text
    /\ displayedMarkdown (render st') = text
    /\ output (render st')
       = (if String.eqb text "" then None else Some (ReactMarkdown text))
    /\ error st' = None
    /\ loading st' = false.
Proof.
  intros Hr Hn Hm.
  destruct (awaiting_reply st i p m Hr Hn Hm)
    as (-> & Hin & _ & He & k & -> & _ & Hok).
  eexists. cbn [step]. rewrite Hn. cbn [resume]. split; [reflexivity |].
  rewrite (exec_finishes _ _ _ (Hok text)).
  split; [reflexivity |]. split; [| split].
  - unfold displayedMarkdown, render. cbn.
    destruct (String.eqb text "") eqn:Et; [| reflexivity].
    apply String.eqb_eq in Et. now subst.
  - unfold render. cbn. destruct (String.eqb text ""); reflexivity.
  - split; [exact He | reflexivity].
Qed.

Lemma reply_is_displayed_witness :
  let st := state_after [ChangePrompt "Is this good for me?"; Drop [photo];
                         Submit; Settle 0 BufferRead] in
  reachable st
  /\ (exists p m, nth_error (inflight st) 0 = Some p /\ awaited_message p = Some m)
  /\ exists st',
       step st (Settle 0 (Replied "Looks **fine**.")) = Some st'
       /\ response st' = Some "Looks **fine**."
       /\ displayedMarkdown (render st') = "Looks **fine**."
       /\ output (render st') = Some (ReactMarkdown "Looks **fine**.")
       /\ error st' = None
       /\ loading st' = false.
Proof.
  intros st.
  assert (Hr : reachable st) by (apply reachable_state_after; discriminate).
  split; [exact Hr |].
  split; [eexists; eexists; split; reflexivity |].
  eapply (reply_is_displayed st 0 _ _ "Looks **fine**." Hr); reflexivity.
Defined.

(** C8. From any state the Clear button can be pressed, and it sets the
    form data to an empty prompt and no file. *)
Theorem clear_resets_form (st : State) :
  exists st',
    step st Clear = Some st'
    /\ FormData.prompt (formData st') = ""
    /\ FormData.file (formData st') = None.
Proof. exists (clear st). repeat split. Qed.

(** C9. In every reachable state at most one handler is suspended on a
    call, [loading] is true exactly while one is, and while [loading] is
    true the submit button is disabled and no submission can start. *)
Theorem one_call_in_flight (st : State) :
  reachable st ->
  (List.length (inflight st) <= 1)%nat
  /\ (inflight st <> [] <-> loading st = true)
  /\ (loading st = true ->
      submitDisabled (render st) = true /\ step st Submit = None).
Proof.
  intros Hr. apply reachable_Inv in Hr. unfold Inv in Hr.
  split; [| split].
  - destruct (inflight st) as [| q [| q' l]]; cbn; [lia | lia | contradiction].
  - destruct (inflight st) as [| q [| q' l]]; [| | contradiction].
    + rewrite Hr. split; [congruence | discriminate].
    + destruct Hr as (-> & _). split; [reflexivity | discriminate].
  - intros Hl. cbn [render submitDisabled step]. rewrite Hl. split; reflexivity.
Qed.

Lemma one_call_in_flight_witness :
  let st := state_after [ChangePrompt "Is this good for me?"; Drop [photo];
                         Submit; Settle 0 BufferRead] in
  reachable st
  /\ loading st = true
  /\ (List.length (inflight st) <= 1)%nat
  /\ (inflight st <> [] <-> loading st = true)
  /\ (loading st = true ->
      submitDisabled (render st) = true /\ step st Submit = None).
Proof.
  intros st.
  assert (Hr : reachable st) by (apply reachable_state_after; discriminate).
  split; [exact Hr |]. split; [reflexivity |].
  exact (one_call_in_flight st Hr).
Defined.

(** C10. On the no-file path the handler performs exactly
    [setLoading(true)], [setError(null)], [setError("No file specified")]
    and, from [finally], [setLoading(false)]: form data and [response]
    are untouched, the earlier error is cleared before the new one is
    set, and [loading] is false afterwards. *)
Theorem no_file_path_frame (st st' : State) :
  FormData.file (formData st) = None ->
  step st Submit = Some st' ->
  setters (handleProcessing (formData st))
  = [LoadingSet true; ErrorSet None; ErrorSet (Some "No file specified");
     LoadingSet false]
  /\ formData st' = formData st
  /\ response st' = response st
  /\ error st' = Some "No file specified"
  /\ loading st' = false.
Proof.
  intros Hf Hs. split.
  - rewrite (handleProcessing_no_file _ Hf). reflexivity.
  - cbn [step] in Hs.
    destruct (loading st || String.eqb (promptInput st) ""); [discriminate |].
    injection Hs as <-. rewrite (exec_submit_no_file st Hf). repeat split.
Qed.

Lemma no_file_path_frame_witness :
  let st := state_after (ask_once ++ [Clear]) in
  let st' := state_after (ask_once ++ [Clear; Submit]) in
  FormData.file (formData st) = None
  /\ step st Submit = Some st'
  /\ response st' = Some "Looks **fine**."
  /\ setters (handleProcessing (formData st))
     = [LoadingSet true; ErrorSet None; ErrorSet (Some "No file specified");
        LoadingSet false]
  /\ formData st' = formData st
  /\ response st' = response st
  /\ error st' = Some "No file specified"
  /\ loading st' = false.
Proof.
  intros st st'. split; [reflexivity |].
  split; [vm_compute; reflexivity |].
  split; [vm_compute; reflexivity |].
  apply (no_file_path_frame st st'); vm_compute; reflexivity.
Defined.

Lemma CallsOn_suspends (bs : list byte) (p : Async unit) (m : MessageData.t) :
  CallsOn bs p m -> forall st, snd (advance p st) <> None.
Proof.
  induction 1 as [m k | m k r m' _ _ | f k m _ _ | f k e m _ _
                  | r k m _ IH | e k m _ IH | b k m _ IH];
    intros st; cbn [advance snd]; try discriminate; apply IH.
Qed.

Lemma finishes_no_call_on (bs : list byte) (p : Async unit) (upd : State -> State)
    (m : MessageData.t) :
  finishes p upd -> ~ CallsOn bs p m.
Proof.
  intros Hf Hc. apply (CallsOn_suspends bs p m Hc init). now rewrite (Hf init).
Qed.

(** X1. In a run in which [arrayBuffer()] delivers the bytes [bs],
    [handleProcessing] invokes [sendMessage(m)] exactly when a file is
    selected and [m] is the payload composed from it: [contents] is the
    Base64 encoding of [bs], [type] is the file's media type and [prompt] is
    [formData.prompt] as it is (empty or not). *)
Theorem sendMessage_payload (fd : FormData.t) (bs : list byte) (m : MessageData.t) :
  CallsOn bs (handleProcessing fd) m
  <-> exists f,
        FormData.file fd = Some f
        /\ m = MessageData.mk
                 (MessageData.mkPart (Base64.encode bs) (file_type f))
                 (FormData.prompt fd).
Proof.
  split.
  - intros H. destruct (FormData.file fd) as [f |] eqn:Hf.
    + exists f. split; [reflexivity |].
      destruct (handleProcessing_file fd f Hf) as (k & Hk & Herr & Hok).
      rewrite Hk in H.
      inversion H as [| | | | | | ? ? ? H1]; subst.
      inversion H1 as [| | | | | ? ? ? H2 |]; subst.
      destruct (Hok bs) as (k' & Hk' & Herr' & Hok').
      inversion H2 as [| | ? ? ? H3 | ? ? e ? H3 | | |]; subst.
      * rewrite Hk' in H3.
        inversion H3 as [| ? ? r ? H4 | | | | |]; subst; [reflexivity |].
        exfalso. destruct r as [e | t].
        -- rewrite Herr' in H4.
           now apply (finishes_no_call_on _ _ _ _ (finishes_failed e)) in H4.
        -- rewrite Hok' in H4.
           now apply (finishes_no_call_on _ _ _ _ (finishes_response (Some t))) in H4.
      * exfalso. rewrite Herr in H3.
        now apply (finishes_no_call_on _ _ _ _ (finishes_failed e)) in H3.
    + exfalso. rewrite (handleProcessing_no_file fd Hf) in H.
      inversion H as [| | | | | | ? ? ? H1]; subst.
      inversion H1 as [| | | | | ? ? ? H2 |]; subst.
      now apply (finishes_no_call_on _ _ _ _
                   (finishes_error (Some "No file specified"))) in H2.
  - intros (f & Hf & ->).
    destruct (handleProcessing_file fd f Hf) as (k & Hk & _ & Hok).
    destruct (Hok bs) as (k' & Hk' & _).
    rewrite Hk. apply on_set_loading, on_set_error, on_buffer_read.
    rewrite Hk'. apply on_now.
Qed.

Lemma sendMessage_payload_witness :
  CallsOn (file_bytes photo) (handleProcessing (FormData.mk (Some photo) ""))
    (MessageData.mk (MessageData.mkPart "TWFuIQ==" "image/jpeg") "")
  /\ ~ CallsOn (file_bytes photo) (handleProcessing (FormData.mk (Some photo) ""))
         (MessageData.mk (MessageData.mkPart "" "image/jpeg") "").
Proof.
  split.
  - apply (proj2 (sendMessage_payload (FormData.mk (Some photo) "")
                    (file_bytes photo) _)).
    exists photo. split; reflexivity.
  - intros H.
    apply (proj1 (sendMessage_payload (FormData.mk (Some photo) "")
                    (file_bytes photo) _)) in H.
    destruct H as (f & Hf & Hm). injection Hf as <-. discriminate Hm.
Defined.

(** ** Further properties of the handlers and of the event loop *)

Lemma exec_frame (p : Async unit) (st : State) :
  formData (exec p st) = formData st /\ promptInput (exec p st) = promptInput st.
Proof.
  unfold exec. destruct (advance_frame p st) as (Hf & Hp & _).
  destruct (advance p st) as [st1 rest]. cbn in *. auto.
Qed.

(** Induction over the reachable states. *)
Lemma reachable_invariant (P : State -> Prop) :
  P init ->
  (forall st ev st', reachable st -> P st -> step st ev = Some st' -> P st') ->
  forall st, reachable st -> P st.
Proof.
  intros H0 HS st [evs Hr].
  assert (G : forall evs s s', reachable s -> P s -> run evs s = Some s' -> P s').
  { clear st evs Hr. induction evs as [| ev evs IH]; intros s s' Hs HP Hr; cbn in Hr.
    - now injection Hr as <-.
    - destruct (step s ev) as [s1 |] eqn:E; [| discriminate].
      apply (IH s1 s'); [eapply reachable_step | eapply HS |]; eassumption. }
  apply (G evs init st); [exists []; reflexivity | assumption | assumption].
Qed.

(** The state in which the bytes of the file, or a read failure, arrive. *)
Lemma awaiting_buffer (st : State) (i : nat) (f : File)
    (k : Reason + list byte -> Async unit) :
  reachable st ->
  nth_error (inflight st) i = Some (AwaitArrayBuffer f k) ->
  i = 0%nat /\ inflight st = [AwaitArrayBuffer f k]
  /\ loading st = true /\ error st = None
  /\ (forall e, finishes (k (inl e)) (on_rejection e))
  /\ (forall bs, awaits_reply (k (inr bs))).
Proof.
  intros Hr Hn. apply reachable_Inv in Hr. unfold Inv in Hr.
  destruct (inflight st) as [| q [| q' l]]; [destruct i; discriminate | | contradiction].
  destruct Hr as (Hl & He & Hq).
  destruct i as [| i]; [| destruct i; discriminate].
  cbn in Hn. injection Hn as ->.
  destruct Hq as [(f' & k' & Heq & Hrej & Hok) | (m' & k' & Heq & _)]; [| discriminate].
  injection Heq as -> ->. repeat split; auto.
Qed.

(** X2. If reading the file fails with [e], the submission ends there: no
    [sendMessage] call is made under any circumstances, [error] is the
    template string of [e], [loading] is false, and [response] is as
    before. *)
Theorem read_failure_sends_nothing (st : State) (i : nat) (f : File)
    (k : Reason + list byte -> Async unit) (e : JsValue) :
  reachable st ->
  nth_error (inflight st) i = Some (AwaitArrayBuffer f k) ->
  exists st',
    step st (Settle i (Rejected e)) = Some st'
    /\ (forall m, ~ Calls (k (inl (Value e))) m)
    /\ inflight st' = []
    /\ error st' = Some (template e)
    /\ loading st' = false
    /\ response st' = response st.
Proof.
  intros Hr Hn.
  destruct (awaiting_buffer st i f k Hr Hn) as (-> & Hin & _ & _ & Hrej & _).
  eexists. cbn [step]. rewrite Hn. cbn [resume]. split; [reflexivity |].
  split.
  - intros m. apply (finishes_no_call _ _ m (Hrej (Value e))).
  - rewrite (exec_finishes _ _ _ (Hrej (Value e))), Hin. repeat split.
Qed.

Lemma read_failure_sends_nothing_witness :
  let st := state_after [ChangePrompt "Is this good for me?"; Drop [photo]; Submit] in
  reachable st
  /\ exists k st',
       nth_error (inflight st) 0 = Some (AwaitArrayBuffer photo k)
       /\ step st (Settle 0 (Rejected (JsError "NotReadableError" "gone"))) = Some st'
       /\ (forall m, ~ Calls (k (inl (Value (JsError "NotReadableError" "gone")))) m)
       /\ inflight st' = []
       /\ error st' = Some "NotReadableError: gone"
       /\ loading st' = false
       /\ response st' = response st.
Proof.
  intros st.
  assert (Hr : reachable st) by (apply reachable_state_after; discriminate).
  split; [exact Hr |].
  eexists.
  destruct (read_failure_sends_nothing st 0 photo _
              (JsError "NotReadableError" "gone") Hr eq_refl) as (st' & H).
  exists st'. split; [reflexivity | exact H].
Defined.

(** The three steps of a submission, one event each. *)
Lemma step_submit_file (st : State) (f : File) :
  loading st = false ->
  promptInput st <> "" ->
  inflight st = [] ->
  FormData.file (formData st) = Some f ->
  exists k,
    step st Submit
    = Some (with_inflight [AwaitArrayBuffer f k]
              (with_error None (with_loading true st)))
    /\ (forall e, k (inl e) = failed e)
    /\ exists k',
         k (inr (file_bytes f))
         = AwaitSendMessage
             (MessageData.mk
                (MessageData.mkPart (Base64.encode (file_bytes f)) (file_type f))
                (FormData.prompt (formData st))) k'
         /\ (forall e, k' (inl e) = failed e)
         /\ (forall text, k' (inr text)
                          = SetResponse (Some text) (SetLoading false (Ret tt))).
Proof.
  intros Hl Hp Hin Hf.
  destruct (handleProcessing_file _ f Hf) as (k & Hk & Herr & Hok).
  exists k. split; [| split; [exact Herr | exact (Hok (file_bytes f))]].
  cbn [step]. rewrite Hl. cbn [orb].
  apply String.eqb_neq in Hp. rewrite Hp.
  unfold exec. rewrite Hk. cbn. now rewrite Hin.
Qed.

Lemma step_buffer_read (st : State) (f : File) k m k' :
  inflight st = [AwaitArrayBuffer f k] ->
  k (inr (file_bytes f)) = AwaitSendMessage m k' ->
  step st (Settle 0 BufferRead) = Some (with_inflight [AwaitSendMessage m k'] st).
Proof.
  intros Hin Hk. cbn [step]. rewrite Hin. cbn [nth_error resume remove_nth].
  unfold exec. rewrite Hk. reflexivity.
Qed.

Lemma step_replied (st : State) m k text :
  inflight st = [AwaitSendMessage m k] ->
  k (inr text) = SetResponse (Some text) (SetLoading false (Ret tt)) ->
  step st (Settle 0 (Replied text))
  = Some (with_inflight [] (with_loading false (with_response (Some text) st))).
Proof.
  intros Hin Hk. cbn [step]. rewrite Hin. cbn [nth_error resume remove_nth].
  unfold exec. rewrite Hk. reflexivity.
Qed.

Lemma step_clear (st : State) : step st Clear = Some (clear st).
Proof. reflexivity. Qed.

(** X3. From any reachable state whose submit button is enabled, with text
    in the input and a file selected, a whole submission goes through:
    Submit, the file read and the reply are each accepted in turn, and at
    the end [response] is the reply, [error] is [null] (whatever it was
    before), [loading] is false, nothing is in flight and the form data is
    as it was. *)
Theorem submit_cycle (st : State) (f : File) (text : string) :
  reachable st ->
  loading st = false ->
  promptInput st <> "" ->
  FormData.file (formData st) = Some f ->
  exists st',
    run [Submit; Settle 0 BufferRead; Settle 0 (Replied text)] st = Some st'
    /\ response st' = Some text
    /\ error st' = None
    /\ loading st' = false
    /\ inflight st' = []
    /\ formData st' = formData st.
Proof.
  intros Hr Hl Hp Hf.
  pose proof (Inv_idle st (reachable_Inv st Hr) Hl) as Hin.
  destruct (step_submit_file st f Hl Hp Hin Hf)
    as (k & Hs1 & _ & k' & Hk & _ & Hok).
  eexists. cbn [run]. rewrite Hs1.
  erewrite step_buffer_read; [| reflexivity | exact Hk].
  erewrite step_replied; [| reflexivity | apply Hok].
  split; [reflexivity |]. repeat split.
Qed.

Lemma submit_cycle_witness :
  let st := state_after (ask_once ++ [Submit; Settle 0 BufferRead;
                           Settle 0 (Rejected (JsError "Error" "quota exceeded"))]) in
  reachable st
  /\ error st = Some "Error: quota exceeded"
  /\ loading st = false
  /\ promptInput st <> ""
  /\ FormData.file (formData st) = Some photo
  /\ exists st',
       run [Submit; Settle 0 BufferRead; Settle 0 (Replied "Better now.")] st = Some st'
       /\ response st' = Some "Better now."
       /\ error st' = None
       /\ loading st' = false
       /\ inflight st' = []
       /\ formData st' = formData st.
Proof.
  intros st.
  assert (Hr : reachable st) by (apply reachable_state_after; discriminate).
  assert (Hp : promptInput st <> "") by discriminate.
  split; [exact Hr |]. split; [reflexivity |]. split; [reflexivity |].
  split; [exact Hp |]. split; [reflexivity |].
  exact (submit_cycle st photo "Better now." Hr eq_refl Hp eq_refl).
Defined.

(** X4. The payload is composed from the form data the handler closed over
    when Submit was pressed: pressing Clear while the file is being read
    empties the form, but the [sendMessage] call that follows still carries
    the submitted file and prompt. *)
Theorem clear_in_flight_keeps_payload (st : State) (f : File) :
  reachable st ->
  loading st = false ->
  promptInput st <> "" ->
  FormData.file (formData st) = Some f ->
  exists st' p,
    run [Submit; Clear; Settle 0 BufferRead] st = Some st'
    /\ formData st' = FormData.mk None ""
    /\ inflight st' = [p]
    /\ awaited_message p
       = Some (MessageData.mk
                 (MessageData.mkPart (Base64.encode (file_bytes f)) (file_type f))
                 (FormData.prompt (formData st))).
Proof.
  intros Hr Hl Hp Hf.
  pose proof (Inv_idle st (reachable_Inv st Hr) Hl) as Hin.
  destruct (step_submit_file st f Hl Hp Hin Hf)
    as (k & Hs1 & _ & k' & Hk & _ & _).
  eexists. eexists. cbn [run]. rewrite Hs1, step_clear.
  erewrite step_buffer_read; [| reflexivity | exact Hk].
  split; [reflexivity |]. repeat split.
Qed.

Lemma clear_in_flight_keeps_payload_witness :
  let st := state_after [ChangePrompt "Is this good for me?"; Drop [photo]] in
  reachable st
  /\ loading st = false
  /\ promptInput st <> ""
  /\ FormData.file (formData st) = Some photo
  /\ exists st' p,
       run [Submit; Clear; Settle 0 BufferRead] st = Some st'
       /\ formData st' = FormData.mk None ""
       /\ inflight st' = [p]
       /\ awaited_message p
          = Some (MessageData.mk (MessageData.mkPart "TWFuIQ==" "image/jpeg")
                    "Is this good for me?").
Proof.
  intros st.
  assert (Hr : reachable st) by (apply reachable_state_after; discriminate).
  assert (Hp : promptInput st <> "") by discriminate.
  split; [exact Hr |]. split; [reflexivity |].
  split; [exact Hp |]. split; [reflexivity |].
  exact (clear_in_flight_keeps_payload st photo Hr eq_refl Hp eq_refl).
Defined.

(** What one event does to [response], [error] and [loading] when it
    settles the awaited promise. *)
Lemma step_settle (st st' : State) (i : nat) (o : Outcome) :
  reachable st ->
  step st (Settle i o) = Some st' ->
  i = 0%nat /\ loading st = true
  /\ ((exists e, o = Rejected e
        /\ st' = with_inflight [] (with_loading false (on_rejection e st)))
      \/ (exists text m k, o = Replied text
           /\ inflight st = [AwaitSendMessage m k]
           /\ st' = with_inflight [] (with_loading false
                      (with_response (Some text) st)))
      \/ (exists f k m k', o = BufferRead
           /\ inflight st = [AwaitArrayBuffer f k]
           /\ (forall e, finishes (k' (inl e)) (on_rejection e))
           /\ (forall text, finishes (k' (inr text)) (with_response (Some text)))
           /\ st' = with_inflight [AwaitSendMessage m k'] st)).
Proof.
  intros Hr Hs. cbn [step] in Hs.
  destruct (nth_error (inflight st) i) as [p |] eqn:Hn; [| discriminate].
  destruct (resume p o) as [p' |] eqn:Hres; [| discriminate].
  injection Hs as <-.
  pose proof (reachable_Inv st Hr) as HI. unfold Inv in HI.
  destruct (inflight st) as [| q [| q' l]] eqn:Hin;
    [destruct i; discriminate | | contradiction].
  destruct HI as (Hl & He & Hq).
  destruct i as [| i]; [| destruct i; discriminate].
  cbn in Hn. injection Hn as ->. cbn [remove_nth].
  split; [reflexivity |]. split; [exact Hl |].
  destruct Hq as [(f & k & -> & Hrej & Hok) | (m & k & -> & Hrej & Hok)].
  - destruct o as [e | | t]; cbn in Hres; try discriminate; injection Hres as <-.
    + left. exists e. split; [reflexivity |].
      rewrite (exec_finishes _ _ _ (Hrej e)). destruct e as [v | d |]; reflexivity.
    + right; right. destruct (Hok (file_bytes f)) as (m & k' & Hk' & Hrej' & Hok').
      exists f, k, m, k'. rewrite Hk'. repeat split; auto.
  - destruct o as [e | | t]; cbn in Hres; try discriminate; injection Hres as <-.
    + left. exists e. split; [reflexivity |].
      rewrite (exec_finishes _ _ _ (Hrej e)). destruct e as [v | d |]; reflexivity.
    + right; left. exists t, m, k. split; [reflexivity |]. split; [reflexivity |].
      rewrite (exec_finishes _ _ _ (Hok t)). reflexivity.
Qed.

Lemma step_submit (st st' : State) :
  step st Submit = Some st' ->
  response st' = response st
  /\ (FormData.file (formData st) = None -> st'
      = with_loading false (with_error (Some "No file specified") st)).
Proof.
  intros Hs. cbn [step] in Hs.
  destruct (loading st || String.eqb (promptInput st) ""); [discriminate |].
  injection Hs as <-.
  destruct (FormData.file (formData st)) as [f |] eqn:Hf.
  - destruct (handleProcessing_suspends _ f Hf) as (p & _ & Hadv).
    unfold exec. rewrite Hadv. split; [reflexivity | discriminate].
  - rewrite (exec_submit_no_file st Hf). split; reflexivity.
Qed.

(** X5. An event changes [response] only if it is the arrival of a reply,
    and then [response] is exactly that reply: nothing the user does, no
    failure and no new submission sets it back to [null] or alters it. *)
Theorem response_changes_on_reply_only (st st' : State) (ev : Event) :
  reachable st ->
  step st ev = Some st' ->
  response st' = response st
  \/ exists text, ev = Settle 0 (Replied text) /\ response st' = Some text.
Proof.
  intros Hr Hs. destruct ev as [v | fl | fl | | | i o].
  - cbn [step] in Hs. destruct (loading st); [discriminate |].
    injection Hs as <-. now left.
  - cbn [step] in Hs. destruct (loading st); [discriminate |].
    injection Hs as <-. now left.
  - cbn [step] in Hs. destruct (loading st); [injection Hs as <-; now left |].
    destruct fl; injection Hs as <-; now left.
  - injection Hs as <-. now left.
  - left. apply (step_submit st st' Hs).
  - destruct (step_settle st st' i o Hr Hs)
      as (-> & _ & [(e & -> & ->) | [(t & m & k & -> & _ & ->)
                                     | (f & k & m & k' & -> & _ & _ & _ & ->)]]).
    + left. destruct e as [v | d |]; reflexivity.
    + right. exists t. split; reflexivity.
    + now left.
Qed.

Lemma response_changes_on_reply_only_witness :
  let st := state_after (ask_once ++ [Submit; Settle 0 BufferRead]) in
  let ev := Settle 0 (Rejected (JsError "Error" "quota exceeded")) in
  let st' := state_after (ask_once ++ [Submit; Settle 0 BufferRead; ev]) in
  reachable st
  /\ step st ev = Some st'
  /\ response st = Some "Looks **fine**."
  /\ (response st' = response st
      \/ exists text, ev = Settle 0 (Replied text) /\ response st' = Some text).
Proof.
  intros st ev st'.
  assert (Hr : reachable st) by (apply reachable_state_after; discriminate).
  split; [exact Hr |]. split; [vm_compute; reflexivity |].
  split; [reflexivity |].
  apply (response_changes_on_reply_only st st' ev Hr). vm_compute; reflexivity.
Defined.

(** X6. In every reachable state [formData.prompt] is either the text
    the input shows or the empty string: the two differ only after Clear,
    which empties the form data and leaves the input as it is. *)
Theorem prompt_matches_input_or_empty (st : State) :
  reachable st ->
  FormData.prompt (formData st) = promptInput st
  \/ FormData.prompt (formData st) = "".
Proof.
  revert st. apply reachable_invariant.
  - now left.
  - intros st ev st' _ IH Hs. destruct ev as [v | fl | fl | | | i o]; cbn [step] in Hs.
    + destruct (loading st); [discriminate |]. injection Hs as <-. now left.
    + destruct (loading st); [discriminate |]. injection Hs as <-. exact IH.
    + destruct (loading st); [injection Hs as <-; exact IH |].
      destruct fl; injection Hs as <-; exact IH.
    + injection Hs as <-. now right.
    + destruct (loading st || String.eqb (promptInput st) ""); [discriminate |].
      injection Hs as <-.
      destruct (exec_frame (handleProcessing (formData st)) st) as (-> & ->).
      exact IH.
    + destruct (nth_error (inflight st) i) as [p |]; [| discriminate].
      destruct (resume p o) as [p' |]; [| discriminate].
      injection Hs as <-.
      destruct (exec_frame p' (with_inflight (remove_nth i (inflight st)) st))
        as (-> & ->).
      exact IH.
Qed.

Lemma prompt_matches_input_or_empty_witness :
  let st := state_after [ChangePrompt "hi"; Clear; Drop [photo]] in
  reachable st
  /\ promptInput st = "hi"
  /\ (FormData.prompt (formData st) = promptInput st
      \/ FormData.prompt (formData st) = "").
Proof.
  intros st.
  assert (Hr : reachable st) by (apply reachable_state_after; discriminate).
  split; [exact Hr |]. split; [reflexivity |].
  exact (prompt_matches_input_or_empty st Hr).
Defined.

(** X7. While [loading] is true the form cannot be edited: whatever event
    happens, the text of the input stays, and the form data changes only if
    the event is Clear (typing and choosing a file are disabled, a drop is
    ignored, and the handler itself never writes the form data). *)
Theorem form_frozen_while_loading (st st' : State) (ev : Event) :
  loading st = true ->
  step st ev = Some st' ->
  promptInput st' = promptInput st
  /\ (formData st' = formData st \/ ev = Clear).
Proof.
  intros Hl Hs. destruct ev as [v | fl | fl | | | i o]; cbn [step] in Hs;
    rewrite ?Hl in Hs; try discriminate.
  - injection Hs as <-. auto.
  - injection Hs as <-. auto.
  - destruct (nth_error (inflight st) i) as [p |]; [| discriminate].
    destruct (resume p o) as [p' |]; [| discriminate].
    injection Hs as <-.
    destruct (exec_frame p' (with_inflight (remove_nth i (inflight st)) st))
      as (-> & ->).
    auto.
Qed.

Lemma form_frozen_while_loading_witness :
  let st := state_after [ChangePrompt "Is this good for me?"; Drop [photo]; Submit] in
  loading st = true
  /\ step st (Drop [mkFile "other.png" "image/png" []]) = Some st
  /\ promptInput st = promptInput st
  /\ (formData st = formData st \/ Drop [mkFile "other.png" "image/png" []] = Clear).
Proof.
  intros st. split; [reflexivity |]. split; [vm_compute; reflexivity |].
  apply (form_frozen_while_loading st st (Drop [mkFile "other.png" "image/png" []]));
    vm_compute; reflexivity.
Defined.

(** X8. While a call is in flight the text input is not empty: every
    submission was made with text in the [required] input, and the input
    cannot change until the call has settled. *)
Theorem in_flight_has_text (st : State) :
  reachable st -> inflight st <> [] -> promptInput st <> "".
Proof.
  intros Hr Hin.
  assert (G : loading st = true -> promptInput st <> "").
  { clear Hin. revert st Hr.
    apply (reachable_invariant (fun s => loading s = true -> promptInput s <> "")).
    - discriminate.
    - intros st ev st' Hr IH Hs Hl'.
      destruct ev as [v | fl | fl | | | i o].
      + cbn [step] in Hs. destruct (loading st) eqn:Hl; [discriminate |].
        injection Hs as <-. cbn in Hl'. congruence.
      + cbn [step] in Hs. destruct (loading st) eqn:Hl; [discriminate |].
        injection Hs as <-. cbn in Hl'. congruence.
      + cbn [step] in Hs. destruct (loading st) eqn:Hl.
        * injection Hs as <-. auto.
        * destruct fl; injection Hs as <-; cbn in Hl'; congruence.
      + injection Hs as <-. auto.
      + cbn [step] in Hs.
        destruct (loading st); [discriminate |]. cbn [orb] in Hs.
        destruct (String.eqb (promptInput st) "") eqn:Hp; [discriminate |].
        injection Hs as <-.
        destruct (exec_frame (handleProcessing (formData st)) st) as (_ & ->).
        now apply String.eqb_neq.
      + destruct (step_settle st st' i o Hr Hs) as (_ & Hl & _).
        destruct (form_frozen_while_loading st st' _ Hl Hs) as (-> & _). auto. }
  apply G. pose proof (reachable_Inv st Hr) as HI. unfold Inv in HI.
  destruct (inflight st) as [| q [| q' l]]; [congruence | tauto | contradiction].
Qed.

Lemma in_flight_has_text_witness :
  let st := state_after [ChangePrompt "hi"; Clear; Drop [photo]; Submit] in
  reachable st
  /\ inflight st <> []
  /\ FormData.prompt (formData st) = ""
  /\ promptInput st <> "".
Proof.
  intros st.
  assert (Hr : reachable st) by (apply reachable_state_after; discriminate).
  assert (Hin : inflight st <> []) by discriminate.
  split; [exact Hr |]. split; [exact Hin |]. split; [reflexivity |].
  exact (in_flight_has_text st Hr Hin).
Defined.

(** X9. Typing the question and choosing the file can be done in either
    order: both orders are accepted in the same states and lead to the same
    state. *)
Theorem typing_and_choosing_commute (st : State) (value : string) (files : list File) :
  run [ChangePrompt value; ChangeFile files] st
  = run [ChangeFile files; ChangePrompt value] st.
Proof.
  cbn [run step]. destruct (loading st) eqn:Hl; [reflexivity |].
  cbn [loading with_promptInput with_formData]. rewrite Hl. reflexivity.
Qed.

(** X10. An empty [FileList] from the file input deselects the file: the
    prompt is kept, and a submission made next stops at "No file specified"
    with nothing in flight.  A drop of an empty list, in contrast, changes
    nothing. *)
Theorem empty_file_list_deselects (st : State) :
  reachable st ->
  loading st = false ->
  promptInput st <> "" ->
  step st (Drop []) = Some st
  /\ exists st1 st2,
       step st (ChangeFile []) = Some st1
       /\ FormData.file (formData st1) = None
       /\ FormData.prompt (formData st1) = FormData.prompt (formData st)
       /\ step st1 Submit = Some st2
       /\ error st2 = Some "No file specified"
       /\ inflight st2 = [].
Proof.
  intros Hr Hl Hp.
  pose proof (Inv_idle st (reachable_Inv st Hr) Hl) as Hin.
  split.
  - cbn [step]. now rewrite Hl.
  - eexists. eexists. cbn [step]. rewrite Hl.
    split; [reflexivity |]. split; [reflexivity |]. split; [reflexivity |].
    cbn [loading promptInput with_formData]. rewrite Hl.
    apply String.eqb_neq in Hp. rewrite Hp. cbn [orb].
    split; [reflexivity |].
    rewrite exec_submit_no_file by reflexivity.
    split; [reflexivity |]. exact Hin.
Qed.

Lemma empty_file_list_deselects_witness :
  let st := state_after [ChangePrompt "Is this good for me?"; Drop [photo]] in
  reachable st
  /\ loading st = false
  /\ promptInput st <> ""
  /\ FormData.file (formData st) = Some photo
  /\ step st (Drop []) = Some st
  /\ exists st1 st2,
       step st (ChangeFile []) = Some st1
       /\ FormData.file (formData st1) = None
       /\ FormData.prompt (formData st1) = FormData.prompt (formData st)
       /\ step st1 Submit = Some st2
       /\ error st2 = Some "No file specified"
       /\ inflight st2 = [].
Proof.
  intros st.
  assert (Hr : reachable st) by (apply reachable_state_after; discriminate).
  assert (Hp : promptInput st <> "") by discriminate.
  split; [exact Hr |]. split; [reflexivity |].
  split; [exact Hp |]. split; [reflexivity |].
  exact (empty_file_list_deselects st Hr eq_refl Hp).
Defined.

(** X11. The [contents] of the payload has four characters for every three
    bytes of the file, the last group padded: [4 * ceil(N / 3)] characters
    for a file of [N] bytes. *)
Theorem payload_contents_length (fd : FormData.t) (f : File) (st : State) :
  FormData.file fd = Some f ->
  exists p p' m,
    snd (advance (handleProcessing fd) st) = Some p
    /\ resume p BufferRead = Some p'
    /\ awaited_message p' = Some m
    /\ String.length (MessageData.contents (MessageData.file m))
       = (4 * ((List.length (file_bytes f) + 2) / 3))%nat.
Proof.
  intros Hf. destruct (handleProcessing_file fd f Hf) as (k & Hk & _ & Hok).
  destruct (Hok (file_bytes f)) as (k' & Hk' & _).
  exists (AwaitArrayBuffer f k). eexists. eexists.
  split; [rewrite Hk; reflexivity |].
  split; [reflexivity |].
  rewrite Hk'. split; [reflexivity |].
  apply Base64Facts.encode_length.
Qed.

Lemma payload_contents_length_witness :
  FormData.file (FormData.mk (Some photo) "Is this good for me?") = Some photo
  /\ exists p p' m,
       snd (advance (handleProcessing (FormData.mk (Some photo) "Is this good for me?"))
              init) = Some p
       /\ resume p BufferRead = Some p'
       /\ awaited_message p' = Some m
       /\ String.length (MessageData.contents (MessageData.file m))
          = (4 * ((List.length (file_bytes photo) + 2) / 3))%nat.
Proof.
  split; [reflexivity |].
  apply (payload_contents_length (FormData.mk (Some photo) "Is this good for me?")
           photo init).
  reflexivity.
Defined.

(** X12. A submission cannot leave the page stuck in Processing: while
    [loading] is true a rejection of the awaited promise is always accepted
    and turns [loading] off, and [loading] is off after any two settlements
    (the file read, then the reply). *)
Theorem loading_always_ends (st : State) :
  reachable st ->
  loading st = true ->
  (forall e, exists st',
     step st (Settle 0 (Rejected e)) = Some st'
     /\ loading st' = false /\ inflight st' = [])
  /\ (forall o1 o2 st1 st2,
        step st (Settle 0 o1) = Some st1 ->
        step st1 (Settle 0 o2) = Some st2 ->
        loading st2 = false /\ inflight st2 = []).
Proof.
  intros Hr Hl. split.
  - intros e. pose proof (reachable_Inv st Hr) as HI. unfold Inv in HI.
    destruct (inflight st) as [| q [| q' l]] eqn:Hin; [congruence | | contradiction].
    destruct HI as (_ & _ & [(f & k & -> & Hrej & _) | (m & k & -> & Hrej & _)]);
      eexists; cbn [step]; rewrite Hin; cbn [nth_error resume remove_nth];
      (split; [reflexivity |]);
      rewrite (exec_finishes _ _ _ (Hrej e)); destruct e as [v | d |];
      split; reflexivity.
  - intros o1 o2 st1 st2 Hs1 Hs2.
    pose proof (reachable_step st st1 _ Hr Hs1) as Hr1.
    destruct (step_settle st1 st2 0 o2 Hr1 Hs2)
      as (_ & Hl1 & [(e & -> & ->) | [(t & m & k & -> & _ & ->)
                                      | (f & k & m & k' & -> & Hin1 & _)]]).
    + split; reflexivity.
    + split; reflexivity.
    + exfalso.
      destruct (step_settle st st1 0 o1 Hr Hs1)
        as (_ & _ & [(e & -> & ->) | [(t & m0 & k0 & -> & _ & ->)
                                      | (f0 & k0 & m0 & k0' & -> & _ & _ & _ & ->)]]);
        discriminate.
Qed.

Lemma loading_always_ends_witness :
  let st := state_after [ChangePrompt "Is this good for me?"; Drop [photo]; Submit] in
  reachable st
  /\ loading st = true
  /\ (forall e, exists st',
        step st (Settle 0 (Rejected e)) = Some st'
        /\ loading st' = false /\ inflight st' = [])
  /\ (forall o1 o2 st1 st2,
        step st (Settle 0 o1) = Some st1 ->
        step st1 (Settle 0 o2) = Some st2 ->
        loading st2 = false /\ inflight st2 = []).
Proof.
  intros st.
  assert (Hr : reachable st) by (apply reachable_state_after; discriminate).
  split; [exact Hr |]. split; [reflexivity |].
  exact (loading_always_ends st Hr eq_refl).
Defined.

Lemma step_submit_error (st st' : State) :
  step st Submit = Some st' ->
  error st' = match FormData.file (formData st) with
              | Some _ => None
              | None => Some "No file specified"
              end.
Proof.
  intros Hs. cbn [step] in Hs.
  destruct (loading st || String.eqb (promptInput st) ""); [discriminate |].
  injection Hs as <-.
  destruct (FormData.file (formData st)) as [f |] eqn:Hf.
  - destruct (handleProcessing_suspends _ f Hf) as (p & _ & Hadv).
    unfold exec. rewrite Hadv. reflexivity.
  - rewrite (exec_submit_no_file st Hf). reflexivity.
Qed.

(** X13. An error message stays until a submission replaces it: the only
    events that change [error] are Submit, which sets it to [null] (or to
    "No file specified" when no file is selected), and the rejection of the
    awaited promise, which sets it to the template string of the reason.
    Typing, choosing or dropping a file, Clear, and a successful read or
    reply leave it as it is. *)
Theorem error_changes_on_submit_or_failure (st st' : State) (ev : Event) :
  reachable st ->
  step st ev = Some st' ->
  error st' = error st
  \/ (ev = Submit
      /\ error st' = match FormData.file (formData st) with
                     | Some _ => None
                     | None => Some "No file specified"
                     end)
  \/ (exists e : JsValue,
        ev = Settle 0 (Rejected e) /\ error st' = Some (template e)).
Proof.
  intros Hr Hs. destruct ev as [v | fl | fl | | | i o].
  - cbn [step] in Hs. destruct (loading st); [discriminate |].
    injection Hs as <-. now left.
  - cbn [step] in Hs. destruct (loading st); [discriminate |].
    injection Hs as <-. now left.
  - cbn [step] in Hs. destruct (loading st); [injection Hs as <-; now left |].
    destruct fl; injection Hs as <-; now left.
  - injection Hs as <-. now left.
  - right; left. split; [reflexivity | apply (step_submit_error st st' Hs)].
  - destruct (step_settle st st' i o Hr Hs)
      as (-> & _ & [(e & -> & ->) | [(t & m & k & -> & _ & ->)
                                     | (f & k & m & k' & -> & _ & _ & _ & ->)]]).
    + destruct e as [v | d |].
      * right; right. exists v. split; reflexivity.
      * now left.
      * now left.
    + now left.
    + now left.
Qed.

Lemma error_changes_on_submit_or_failure_witness :
  let st := state_after [ChangePrompt "Is this good for me?"; Submit] in
  let st' := state_after [ChangePrompt "Is this good for me?"; Submit; Clear] in
  reachable st
  /\ step st Clear = Some st'
  /\ error st' = Some "No file specified"
  /\ (error st' = error st
      \/ (Clear = Submit
          /\ error st' = match FormData.file (formData st) with
                         | Some _ => None
                         | None => Some "No file specified"
                         end)
      \/ (exists e : JsValue,
            Clear = Settle 0 (Rejected e) /\ error st' = Some (template e))).
Proof.
  intros st st'.
  assert (Hr : reachable st) by (apply reachable_state_after; discriminate).
  split; [exact Hr |]. split; [vm_compute; reflexivity |].
  split; [reflexivity |].
  apply (error_changes_on_submit_or_failure st st' Clear Hr). vm_compute; reflexivity.
Defined.
